(** * SOS intake-and-triage pipeline: a shallow embedding

    The development follows the JavaScript sources of the service:

    - [services/validationService.js]: the keyword ruleset,
      [validateAIAnalysis], [generateWarnings] and [validateSOSData];
    - [services/gptService.js]: [analyzeSOSContent] and [analyzeTextSOS];
    - [services/whisperService.js]: [transcribeAudio];
    - [models/SOS.js]: the schema of a stored case and its defaults;
    - [controllers/sosController.js]: [createVoiceSOS], [processVoiceSOS],
      [createTextSOS] and [getAllSOS].

    Conventions of the embedding.

    - A JavaScript object is a record whose properties are [option]s:
      [None] is an absent property ([undefined]).  Every property has the
      type the sources document for it (a string, a number, a list of
      strings).
    - A number is the rational it denotes ([Q]); literals are read at their
      decimal value.  A comparison with [undefined] is [false], as in
      JavaScript, where [undefined] converts to [NaN].
    - A string is a [string] of one-byte characters; [toLowerCase] and
      [trim] act on the ASCII range.
    - [async] code that awaits every call is sequential code: it is written
      in a state-and-exception monad over the document store.  The external
      services (file system, transcription, chat completion) are oracles of
      an environment, so every theorem holds for all of their behaviours.
    - [console] output is not modelled. *)

From Stdlib Require Import String Ascii List QArith Bool Lia.
From Stdlib Require Import Sorted Permutation.
From stdpp Require Import base list strings.
Import ListNotations.
Open Scope string_scope.
Open Scope list_scope.

(** ** JavaScript primitives used by the sources *)

(** [x < y] on numbers. *)
Definition Qlt_bool (x y : Q) : bool := negb (Qle_bool y x).

(** [x < c], [x > c], [x >= c] where [x] may be [undefined]. *)
Definition js_lt (x : option Q) (c : Q) : bool :=
  match x with Some q => Qlt_bool q c | None => false end.

Definition js_gt (x : option Q) (c : Q) : bool :=
  match x with Some q => Qlt_bool c q | None => false end.

Definition js_ge (x : option Q) (c : Q) : bool :=
  match x with Some q => Qle_bool c q | None => false end.

(** Truthiness: [undefined], the empty string and zero are falsy; so is
    an absent array, while every array (even an empty one) is truthy. *)
Definition truthy_str (x : option string) : bool :=
  match x with
  | Some s => negb (String.length s =? 0)%nat
  | None => false
  end.

Definition truthy_num (x : option Q) : bool :=
  match x with Some q => negb (Qeq_bool q 0) | None => false end.

Definition truthy_arr {A} (x : option (list A)) : bool :=
  match x with Some _ => true | None => false end.

(** [x === "literal"]. *)
Definition str_eq (x : option string) (lit : string) : bool :=
  match x with Some s => String.eqb s lit | None => false end.

(** [x || d]. *)
Definition or_str (x : option string) (d : string) : string :=
  match x with
  | Some s => if truthy_str x then s else d
  | None => d
  end.

Definition or_num (x : option Q) (d : Q) : Q :=
  match x with
  | Some q => if truthy_num x then q else d
  | None => d
  end.

(** [String.prototype.toLowerCase], on the ASCII range. *)
Definition lower_ascii (c : ascii) : ascii :=
  let n := nat_of_ascii c in
  if (65 <=? n)%nat && (n <=? 90)%nat then ascii_of_nat (n + 32) else c.

Fixpoint toLowerCase (s : string) : string :=
  match s with
  | EmptyString => EmptyString
  | String c s' => String (lower_ascii c) (toLowerCase s')
  end.

(** [s.includes(kw)]: [kw] starts at some position of [s]. *)
Fixpoint includes (s kw : string) : bool :=
  String.prefix kw s ||
  match s with
  | EmptyString => false
  | String _ s' => includes s' kw
  end.

(** ** services/validationService.js *)

Definition CRITICAL_KEYWORDS : list string :=
  [ "trapped"; "stuck"; "can't move"; "cannot move"; "bleeding"; "blood";
    "injured"; "hurt"; "pain"; "fire"; "smoke"; "burning"; "flames";
    "drowning"; "water rising"; "flood"; "collapsed"; "rubble"; "debris";
    "unconscious"; "not breathing"; "chest pain"; "help"; "emergency";
    "urgent"; "dying"; "broken"; "fracture"; "severe"; "earthquake";
    "aftershock" ].

Definition HIGH_KEYWORDS : list string :=
  [ "lost"; "stranded"; "alone"; "cold"; "freezing"; "hypothermia";
    "dehydrated"; "thirsty"; "no water"; "hungry"; "no food"; "scared";
    "afraid"; "panic"; "shelter"; "nowhere to go"; "supplies";
    "medication"; "medicine" ].

(** The analysis object: what the chat completion is asked to produce,
    what [analyzeSOSContent] returns and what [aiAnalysis] stores. *)
Record Analysis := {
  urgency : option string;
  summary : option string;
  eventType : option string;
  injuryStatus : option string;
  riskFactors : option (list string);
  needs : option (list string);
  confidence : option Q
}.

Record ValidationResult := {
  hasKeywords : bool;
  hasCriticalKeywords : bool;
  hasHighKeywords : bool;
  meetsThreshold : bool;
  manualReview : bool;
  adjustedUrgency : option string;
  validationPassed : bool;
  warnings : list string
}.

Definition WARN_LOW_CONFIDENCE : string := "Low confidence in AI analysis".
Definition WARN_KEYWORD_MISMATCH : string :=
  "Critical keywords detected but urgency not marked as CRITICAL".
Definition WARN_EVENT_TYPE : string := "Unable to determine event type".
Definition WARN_NO_NEEDS : string := "No specific needs identified".

(** [warnings.push(w)] under a condition. *)
Definition push_if (c : bool) (w : string) (ws : list string) : list string :=
  if c then ws ++ [w] else ws.

Definition generateWarnings (aiAnalysis : Analysis)
    (hasCriticalKeywords meetsThreshold : bool) : list string :=
  let warnings := [] in
  let warnings := push_if (negb meetsThreshold) WARN_LOW_CONFIDENCE warnings in
  let warnings :=
    push_if (hasCriticalKeywords
             && negb (str_eq (urgency aiAnalysis) "CRITICAL"))
      WARN_KEYWORD_MISMATCH warnings in
  let warnings :=
    push_if (negb (truthy_str (eventType aiAnalysis))
             || str_eq (eventType aiAnalysis) "Unknown")
      WARN_EVENT_TYPE warnings in
  let warnings :=
    push_if (negb (truthy_arr (needs aiAnalysis))
             || match needs aiAnalysis with
                | Some l => (length l =? 0)%nat
                | None => false
                end)
      WARN_NO_NEEDS warnings in
  warnings.

Definition validateAIAnalysis (aiAnalysis : Analysis) (transcript : string)
    : ValidationResult :=
  let transcriptLower := toLowerCase transcript in
  let hasCriticalKeywords :=
    existsb (fun keyword => includes transcriptLower (toLowerCase keyword))
      CRITICAL_KEYWORDS in
  let hasHighKeywords :=
    existsb (fun keyword => includes transcriptLower (toLowerCase keyword))
      HIGH_KEYWORDS in
  let meetsThreshold := js_ge (confidence aiAnalysis) 0.6 in
  let manualReview := false in
  let adjustedUrgency := urgency aiAnalysis in
  let '(adjustedUrgency, manualReview) :=
    if hasCriticalKeywords
       && (str_eq (urgency aiAnalysis) "LOW"
           || str_eq (urgency aiAnalysis) "MEDIUM")
    then (Some "CRITICAL", true)
    else (adjustedUrgency, manualReview) in
  let manualReview :=
    if js_lt (confidence aiAnalysis) 0.5 then true else manualReview in
  let manualReview :=
    if negb (truthy_str (eventType aiAnalysis))
       || str_eq (eventType aiAnalysis) "Unknown"
    then true else manualReview in
  {| hasKeywords := hasCriticalKeywords || hasHighKeywords;
     hasCriticalKeywords := hasCriticalKeywords;
     hasHighKeywords := hasHighKeywords;
     meetsThreshold := meetsThreshold;
     manualReview := manualReview;
     adjustedUrgency := adjustedUrgency;
     validationPassed := true;
     warnings :=
       generateWarnings aiAnalysis hasCriticalKeywords meetsThreshold |}.

(** The location of a report. *)
Record Location := {
  latitude : option Q;
  longitude : option Q;
  accuracy : option Q;
  capturedAt : option nat
}.

Record SosData := {
  sessionId : option string;
  sosType : option string;
  location : option Location
}.

Record SosDataValidation := {
  isValid : bool;
  errors : list string
}.

Definition validTypes : list string := [ "voice"; "text"; "photo" ].

Definition validateSOSData (sosData : SosData) : SosDataValidation :=
  let errors := [] in
  let errors :=
    push_if (negb (truthy_str (sessionId sosData)))
      "Session ID is required" errors in
  let errors :=
    push_if (negb (truthy_str (sosType sosData)))
      "SOS type is required" errors in
  let errors :=
    push_if (match location sosData with
             | None => true
             | Some loc =>
                 negb (truthy_num (latitude loc))
                 || negb (truthy_num (longitude loc))
             end)
      "Location data is required" errors in
  let errors :=
    match location sosData with
    | Some loc =>
        let errors :=
          push_if (js_lt (latitude loc) (-90) || js_gt (latitude loc) 90)
            "Invalid latitude value" errors in
        push_if (js_lt (longitude loc) (-180) || js_gt (longitude loc) 180)
          "Invalid longitude value" errors
    | None => errors
    end in
  let errors :=
    push_if (truthy_str (sosType sosData)
             && negb (match sosType sosData with
                      | Some t => existsb (String.eqb t) validTypes
                      | None => false
                      end))
      "Invalid SOS type. Must be one of: voice, text, photo" errors in
  {| isValid := (length errors =? 0)%nat; errors := errors |}.

(** ** The effects of the service: store, clock, stage trace, exceptions *)

(** A thrown [Error]: the properties the [catch] blocks inspect. *)
Record JsError := {
  err_status : option nat;
  err_code : option string;
  err_message : string
}.

(** [new Error(message)]. *)
Definition new_Error (message : string) : JsError :=
  {| err_status := None; err_code := None; err_message := message |}.

(** *** models/SOS.js *)

Record OriginalData := {
  voiceFileUrl : option string;
  textMessage : option string;
  photoUrl : option string
}.

Record ValidationFlags := {
  vf_hasKeywords : option bool;
  vf_meetsThreshold : option bool;
  vf_manualReview : bool
}.

Record SOS := {
  _id : nat;
  sos_sessionId : option string;
  sos_sosType : option string;
  sos_location : option Location;
  originalData : OriginalData;
  transcript : option string;
  aiAnalysis : Analysis;
  validationFlags : ValidationFlags;
  status : string;
  processingErrors : list string;
  receivedAt : nat;
  processedAt : option nat;
  assignedTo : option string;
  assignedAt : option nat;
  resolvedAt : option nat;
  resolutionNotes : option string
}.

(** The schema's defaults for the nested [aiAnalysis] and
    [validationFlags] paths: [urgency] defaults to MEDIUM, arrays to the
    empty array, [manualReview] to [false]. *)
Definition default_aiAnalysis : Analysis :=
  {| urgency := Some "MEDIUM"; summary := None; eventType := None;
     injuryStatus := None; riskFactors := Some []; needs := Some [];
     confidence := None |}.

Definition default_validationFlags : ValidationFlags :=
  {| vf_hasKeywords := None; vf_meetsThreshold := None;
     vf_manualReview := false |}.

(** The top-level paths that the controller sets in an update. *)
Inductive SetField :=
| SetTranscript (t : string)
| SetStatus (s : string)
| SetAiAnalysis (a : Analysis)
| SetValidationFlags (f : ValidationFlags)
| SetProcessedAt (t : nat)
| SetProcessingErrors (es : list string).

Definition set_field (d : SOS) (f : SetField) : SOS :=
  match f with
  | SetTranscript t =>
      {| _id := _id d; sos_sessionId := sos_sessionId d;
         sos_sosType := sos_sosType d; sos_location := sos_location d;
         originalData := originalData d; transcript := Some t;
         aiAnalysis := aiAnalysis d; validationFlags := validationFlags d;
         status := status d; processingErrors := processingErrors d;
         receivedAt := receivedAt d; processedAt := processedAt d;
         assignedTo := assignedTo d; assignedAt := assignedAt d;
         resolvedAt := resolvedAt d; resolutionNotes := resolutionNotes d |}
  | SetStatus s =>
      {| _id := _id d; sos_sessionId := sos_sessionId d;
         sos_sosType := sos_sosType d; sos_location := sos_location d;
         originalData := originalData d; transcript := transcript d;
         aiAnalysis := aiAnalysis d; validationFlags := validationFlags d;
         status := s; processingErrors := processingErrors d;
         receivedAt := receivedAt d; processedAt := processedAt d;
         assignedTo := assignedTo d; assignedAt := assignedAt d;
         resolvedAt := resolvedAt d; resolutionNotes := resolutionNotes d |}
  | SetAiAnalysis a =>
      {| _id := _id d; sos_sessionId := sos_sessionId d;
         sos_sosType := sos_sosType d; sos_location := sos_location d;
         originalData := originalData d; transcript := transcript d;
         aiAnalysis := a; validationFlags := validationFlags d;
         status := status d; processingErrors := processingErrors d;
         receivedAt := receivedAt d; processedAt := processedAt d;
         assignedTo := assignedTo d; assignedAt := assignedAt d;
         resolvedAt := resolvedAt d; resolutionNotes := resolutionNotes d |}
  | SetValidationFlags f =>
      {| _id := _id d; sos_sessionId := sos_sessionId d;
         sos_sosType := sos_sosType d; sos_location := sos_location d;
         originalData := originalData d; transcript := transcript d;
         aiAnalysis := aiAnalysis d; validationFlags := f;
         status := status d; processingErrors := processingErrors d;
         receivedAt := receivedAt d; processedAt := processedAt d;
         assignedTo := assignedTo d; assignedAt := assignedAt d;
         resolvedAt := resolvedAt d; resolutionNotes := resolutionNotes d |}
  | SetProcessedAt t =>
      {| _id := _id d; sos_sessionId := sos_sessionId d;
         sos_sosType := sos_sosType d; sos_location := sos_location d;
         originalData := originalData d; transcript := transcript d;
         aiAnalysis := aiAnalysis d; validationFlags := validationFlags d;
         status := status d; processingErrors := processingErrors d;
         receivedAt := receivedAt d; processedAt := Some t;
         assignedTo := assignedTo d; assignedAt := assignedAt d;
         resolvedAt := resolvedAt d; resolutionNotes := resolutionNotes d |}
  | SetProcessingErrors es =>
      {| _id := _id d; sos_sessionId := sos_sessionId d;
         sos_sosType := sos_sosType d; sos_location := sos_location d;
         originalData := originalData d; transcript := transcript d;
         aiAnalysis := aiAnalysis d; validationFlags := validationFlags d;
         status := status d; processingErrors := es;
         receivedAt := receivedAt d; processedAt := processedAt d;
         assignedTo := assignedTo d; assignedAt := assignedAt d;
         resolvedAt := resolvedAt d; resolutionNotes := resolutionNotes d |}
  end.

(** An update object is the list of the paths it sets. *)
Definition apply_update (update : list SetField) (d : SOS) : SOS :=
  fold_left set_field update d.

(** The stages of the pipeline, recorded when they are entered. *)
Inductive Stage := Transcription | StructuredAnalysis | Validation.

(** The state: the collection (a document's [_id] is its position), the
    clock read by [new Date()], and the stages entered so far. *)
Record World := {
  db : list SOS;
  clock : nat;
  trace : list Stage
}.

Record Metadata := {
  md_receivedAt : option nat;
  md_location : option Location
}.

(** What awaiting the chat completion and parsing its content yields. *)
Inductive Completion :=
| ApiFailure (e : JsError)
    (* the request rejects, with the HTTP status when there is one *)
| BadContent (message : string)
    (* no content, content that [JSON.parse] rejects, or [null]: an
       error without a status *)
| JsonObject (a : Analysis)
    (* the content parses to a value with these properties *).

(** The external collaborators. *)
Record Env := {
  fs_existsSync : string -> bool;
  audio_transcriptions_create : string -> JsError + string;
  chat_completions_create : string -> Metadata -> Completion
}.

Inductive Outcome (A : Type) :=
| Returned (a : A)
| Thrown (e : JsError).
Arguments Returned {A} a.
Arguments Thrown {A} e.

Definition M (A : Type) : Type := Env -> World -> Outcome A * World.

Definition ret {A} (a : A) : M A := fun _ w => (Returned a, w).

Definition bind {A B} (m : M A) (k : A -> M B) : M B :=
  fun env w =>
    match m env w with
    | (Returned a, w') => k a env w'
    | (Thrown e, w') => (Thrown e, w')
    end.

Definition throw {A} (e : JsError) : M A := fun _ w => (Thrown e, w).

(** [try { body } catch (error) { handler }]. *)
Definition try_catch {A} (body : M A) (handler : JsError -> M A) : M A :=
  fun env w =>
    match body env w with
    | (Returned a, w') => (Returned a, w')
    | (Thrown e, w') => handler e env w'
    end.

Declare Scope js_scope.
Delimit Scope js_scope with js.
Notation "x <- c ;; k" := (bind c (fun x => k))
  (at level 100, c at next level, right associativity) : js_scope.
Notation "c ;; k" := (bind c (fun _ => k))
  (at level 100, right associativity) : js_scope.
Open Scope js_scope.

Definition ask {A} (f : Env -> A) : M A := fun env w => (Returned (f env), w).

Definition record_stage (s : Stage) (w : World) : World :=
  {| db := db w; clock := clock w; trace := trace w ++ [s] |}.

Definition enter (s : Stage) : M unit :=
  fun _ w => (Returned tt, record_stage s w).

(** [new Date()]: reads the clock, which then moves on. *)
Definition new_Date : M nat :=
  fun _ w =>
    (Returned (clock w),
     {| db := db w; clock := S (clock w); trace := trace w |}).

(** What [SOS.create] is given. *)
Record NewSOS := {
  new_sessionId : option string;
  new_sosType : option string;
  new_location : option Location;
  new_originalData : OriginalData;
  new_transcript : option string;
  new_status : string;
  new_receivedAt : nat
}.

Definition SOS_create (n : NewSOS) : M SOS :=
  fun _ w =>
    let doc :=
      {| _id := length (db w);
         sos_sessionId := new_sessionId n;
         sos_sosType := new_sosType n;
         sos_location := new_location n;
         originalData := new_originalData n;
         transcript := new_transcript n;
         aiAnalysis := default_aiAnalysis;
         validationFlags := default_validationFlags;
         status := new_status n;
         processingErrors := [];
         receivedAt := new_receivedAt n;
         processedAt := None;
         assignedTo := None; assignedAt := None;
         resolvedAt := None; resolutionNotes := None |} in
    (Returned doc,
     {| db := db w ++ [doc]; clock := clock w; trace := trace w |}).

Definition SOS_findById (id : nat) : M (option SOS) :=
  fun _ w => (Returned (db w !! id), w).

(** Sets the given paths of the document, if there is one. *)
Definition SOS_findByIdAndUpdate (id : nat) (update : list SetField)
    : M (option SOS) :=
  fun _ w =>
    (Returned (db w !! id),
     {| db := alter (apply_update update) id (db w);
        clock := clock w; trace := trace w |}).

(** ** services/whisperService.js *)

Definition status_is (e : JsError) (n : nat) : bool :=
  match err_status e with Some m => (m =? n)%nat | None => false end.

(** Awaiting the transcription request: its text, or the rejection. *)
Definition await_transcription (audioFilePath : string) : M string :=
  fun env w =>
    match audio_transcriptions_create env audioFilePath with
    | inl e => (Thrown e, w)
    | inr text => (Returned text, w)
    end.

Definition transcribeAudio (audioFilePath : string) : M string :=
  try_catch
    (enter Transcription ;;
     present <- ask (fun env => fs_existsSync env audioFilePath) ;;
     if negb present
     then throw (new_Error ("Audio file not found: " +:+ audioFilePath))
     else
       text <- await_transcription audioFilePath ;;
       ret text)
    (fun error =>
       if str_eq (err_code error) "ENOENT"
       then throw (new_Error "Audio file not found")
       else if status_is error 401
       then throw (new_Error "Invalid OpenAI API key")
       else if status_is error 413
       then throw (new_Error "Audio file too large (max 25MB)")
       else throw (new_Error ("Transcription failed: " +:+ err_message error))).

(** ** services/gptService.js *)

(** Awaiting the chat completion and parsing its content. *)
Definition await_completion (transcript : string) (metadata : Metadata)
    : M Analysis :=
  fun env w =>
    match chat_completions_create env transcript metadata with
    | ApiFailure e => (Thrown e, w)
    | BadContent message => (Thrown (new_Error message), w)
    | JsonObject a => (Returned a, w)
    end.

(** The record returned when the analysis fails. *)
Definition degraded_analysis : Analysis :=
  {| urgency := Some "HIGH";
     summary := Some "AI analysis failed - requires manual review";
     eventType := Some "Unknown";
     injuryStatus := Some "Unknown";
     riskFactors := Some ["AI processing error"];
     needs := Some ["Manual review required"];
     confidence := Some 0%Q |}.

(** [Array.isArray(x) ? x : []]. *)
Definition array_or_empty (x : option (list string)) : list string :=
  match x with Some l => l | None => [] end.

(** The object returned on success: every property, with its default. *)
Definition with_defaults (analysis : Analysis) : Analysis :=
  {| urgency := Some (or_str (urgency analysis) "MEDIUM");
     summary := Some (or_str (summary analysis) "Unable to generate summary");
     eventType := Some (or_str (eventType analysis) "Unknown");
     injuryStatus := Some (or_str (injuryStatus analysis) "Unknown");
     riskFactors := Some (array_or_empty (riskFactors analysis));
     needs := Some (array_or_empty (needs analysis));
     confidence := Some (or_num (confidence analysis) 0.5) |}.

Definition analyzeSOSContent (transcript : string) (metadata : Metadata)
    : M Analysis :=
  try_catch
    (enter StructuredAnalysis ;;
     analysis <- await_completion transcript metadata ;;
     if negb (truthy_str (urgency analysis))
        || negb (truthy_str (summary analysis))
     then throw (new_Error "Invalid AI response structure")
     else ret (with_defaults analysis))
    (fun error =>
       if status_is error 401
       then throw (new_Error "Invalid OpenAI API key")
       else ret degraded_analysis).

Definition analyzeTextSOS (textMessage : string) (metadata : Metadata)
    : M Analysis :=
  analyzeSOSContent textMessage metadata.

(** ** controllers/sosController.js *)

Inductive Body :=
| Accepted (message : string) (sosId : nat) (status : string)
| Rejected (errors : list string)
| Failure (error : string)
| Listing (count total : nat) (data : list SOS).

Record Response := {
  statusCode : nat;
  body : Body
}.

(** [String.prototype.trim], on the ASCII white space. *)
Definition is_space (c : ascii) : bool :=
  let n := nat_of_ascii c in
  ((9 <=? n)%nat && (n <=? 13)%nat) || (n =? 32)%nat.

Fixpoint trimStart (s : string) : string :=
  match s with
  | EmptyString => EmptyString
  | String c s' => if is_space c then trimStart s' else s
  end.

Fixpoint trimEnd (s : string) : string :=
  match s with
  | EmptyString => EmptyString
  | String c s' =>
      match trimEnd s' with
      | EmptyString => if is_space c then EmptyString else String c EmptyString
      | t => String c t
      end
  end.

Definition trim (s : string) : string := trimEnd (trimStart s).

(** [{ ...aiAnalysis, urgency }]. *)
Definition with_urgency (a : Analysis) (u : option string) : Analysis :=
  {| urgency := u; summary := summary a; eventType := eventType a;
     injuryStatus := injuryStatus a; riskFactors := riskFactors a;
     needs := needs a; confidence := confidence a |}.

(** The update that stores a validated analysis. *)
Definition final_update (aiAnalysis : Analysis)
    (validationResult : ValidationResult) (now : nat) : list SetField :=
  [ SetAiAnalysis (with_urgency aiAnalysis (adjustedUrgency validationResult));
    SetValidationFlags
      {| vf_hasKeywords := Some (hasKeywords validationResult);
         vf_meetsThreshold := Some (meetsThreshold validationResult);
         vf_manualReview := manualReview validationResult |};
    SetStatus "processed";
    SetProcessedAt now ].

(** The update that records a failure. *)
Definition failed_update (error : JsError) : list SetField :=
  [SetStatus "failed"; SetProcessingErrors [err_message error]].

(** The body of a voice request after the upload middleware: [location]
    arrives as JSON text, here with the outcome of [JSON.parse] on it
    ([None]: it throws; [Some None]: it yields [null]). *)
Record VoiceRequest := {
  vreq_sessionId : option string;
  vreq_location : option (option Location);
  vreq_file : option string
}.

Definition JSON_parse {A} (parsed : option A) : M A :=
  match parsed with
  | Some v => ret v
  | None => throw (new_Error "Unexpected token in JSON")
  end.

(** The handler answers and leaves a background job behind: the arguments
    of the [processVoiceSOS] call it does not await. *)
Definition createVoiceSOS (req : VoiceRequest)
    : M (Response * option (nat * string)) :=
  try_catch
    (match vreq_file req with
     | None =>
         ret ({| statusCode := 400; body := Failure "Audio file is required" |},
              None)
     | Some audioFile_path =>
         location <- JSON_parse (vreq_location req) ;;
         let validation :=
           validateSOSData {| sessionId := vreq_sessionId req;
                              sosType := Some "voice";
                              location := location |} in
         if negb (isValid validation)
         then ret ({| statusCode := 400;
                      body := Rejected (errors validation) |}, None)
         else
           location <- JSON_parse (vreq_location req) ;;
           now <- new_Date ;;
           sos <- SOS_create
                    {| new_sessionId := vreq_sessionId req;
                       new_sosType := Some "voice";
                       new_location := location;
                       new_originalData :=
                         {| voiceFileUrl := Some audioFile_path;
                            textMessage := None; photoUrl := None |};
                       new_transcript := None;
                       new_status := "processing";
                       new_receivedAt := now |} ;;
           ret ({| statusCode := 201;
                   body := Accepted "SOS received and being processed"
                             (_id sos) "processing" |},
                Some (_id sos, audioFile_path))
     end)
    (fun error =>
       ret ({| statusCode := 500;
               body := Failure "Failed to process voice SOS" |}, None)).

Definition processVoiceSOS (sosId : nat) (audioFilePath : string) : M unit :=
  try_catch
    (transcript <- transcribeAudio audioFilePath ;;
     SOS_findByIdAndUpdate sosId
       [SetTranscript transcript; SetStatus "processing"] ;;
     found <- SOS_findById sosId ;;
     match found with
     | None =>
         throw (new_Error
                  "Cannot read properties of null (reading 'receivedAt')")
     | Some sos =>
         aiAnalysis <- analyzeSOSContent transcript
                         {| md_receivedAt := Some (receivedAt sos);
                            md_location := sos_location sos |} ;;
         enter Validation ;;
         let validationResult := validateAIAnalysis aiAnalysis transcript in
         now <- new_Date ;;
         SOS_findByIdAndUpdate sosId
           (final_update aiAnalysis validationResult now) ;;
         ret tt
     end)
    (fun error =>
       SOS_findByIdAndUpdate sosId (failed_update error) ;;
       ret tt).

(** A voice report from intake to the end of its background job. *)
Definition runVoiceSOS (req : VoiceRequest) : M Response :=
  started <- createVoiceSOS req ;;
  match started with
  | (res, Some (sosId, audioFilePath)) =>
      processVoiceSOS sosId audioFilePath ;;
      ret res
  | (res, None) => ret res
  end.

Record TextRequest := {
  req_sessionId : option string;
  req_location : option Location;
  req_message : option string
}.

Definition createTextSOS (req : TextRequest) : M Response :=
  try_catch
    (let validation :=
       validateSOSData {| sessionId := req_sessionId req;
                          sosType := Some "text";
                          location := req_location req |} in
     if negb (isValid validation)
     then ret {| statusCode := 400; body := Rejected (errors validation) |}
     else
       match req_message req with
       | None =>
           ret {| statusCode := 400;
                  body := Failure "Message text is required" |}
       | Some message =>
           if negb (truthy_str (Some message))
              || (String.length (trim message) =? 0)%nat
           then ret {| statusCode := 400;
                       body := Failure "Message text is required" |}
           else
             now <- new_Date ;;
             sos <- SOS_create
                      {| new_sessionId := req_sessionId req;
                         new_sosType := Some "text";
                         new_location := req_location req;
                         new_originalData :=
                           {| voiceFileUrl := None;
                              textMessage := Some message;
                              photoUrl := None |};
                         new_transcript := Some message;
                         new_status := "processing";
                         new_receivedAt := now |} ;;
             aiAnalysis <- analyzeTextSOS message
                             {| md_receivedAt := Some (receivedAt sos);
                                md_location := req_location req |} ;;
             enter Validation ;;
             let validationResult := validateAIAnalysis aiAnalysis message in
             now <- new_Date ;;
             SOS_findByIdAndUpdate (_id sos)
               (final_update aiAnalysis validationResult now) ;;
             ret {| statusCode := 201;
                    body := Accepted "Text SOS processed" (_id sos)
                              "processed" |}
       end)
    (fun error =>
       ret {| statusCode := 500;
              body := Failure "Failed to process text SOS" |}).

(** The query string of the listing, with [limit] and [skip] as
    [parseInt] reads them. *)
Record ListQuery := {
  q_status : option string;
  q_urgency : option string;
  q_limit : option nat;
  q_skip : option nat
}.

(** The filter built from the query: a condition per truthy parameter. *)
Definition matches (q : ListQuery) (d : SOS) : bool :=
  (if truthy_str (q_status q) then str_eq (q_status q) (status d) else true)
  && (if truthy_str (q_urgency q)
      then match urgency (aiAnalysis d) with
           | Some u => str_eq (q_urgency q) u
           | None => false
           end
      else true).

(** The store's order on a string path: an absent value is below every
    string, and strings compare code unit by code unit. *)
Definition compare_urgency (a b : option string) : comparison :=
  match a, b with
  | None, None => Eq
  | None, Some _ => Lt
  | Some _, None => Gt
  | Some x, Some y => String.compare x y
  end.

(** [d1] is listed no later than [d2] under
    [sort({ "aiAnalysis.urgency": -1, receivedAt: -1 })]. *)
Definition listed_before (d1 d2 : SOS) : bool :=
  match compare_urgency (urgency (aiAnalysis d1)) (urgency (aiAnalysis d2)) with
  | Gt => true
  | Lt => false
  | Eq => (receivedAt d2 <=? receivedAt d1)%nat
  end.

Fixpoint insert_sorted (d : SOS) (l : list SOS) : list SOS :=
  match l with
  | [] => [d]
  | x :: l' => if listed_before d x then d :: l else x :: insert_sorted d l'
  end.

(** Documents equal on both keys keep the order of the collection. *)
Definition sort_listing (l : list SOS) : list SOS :=
  fold_right insert_sorted [] l.

(** [limit(0)] is no limit. *)
Definition apply_limit (n : nat) (l : list SOS) : list SOS :=
  if (n =? 0)%nat then l else take n l.

Definition SOS_find (q : ListQuery) (limit skip : nat) : M (list SOS) :=
  fun _ w =>
    (Returned (apply_limit limit
                 (drop skip (sort_listing (List.filter (matches q) (db w))))),
     w).

Definition SOS_countDocuments (q : ListQuery) : M nat :=
  fun _ w => (Returned (length (List.filter (matches q) (db w))), w).

Definition getAllSOS (q : ListQuery) : M Response :=
  try_catch
    (let limit := match q_limit q with Some n => n | None => 100 end in
     let skip := match q_skip q with Some n => n | None => 0 end in
     sosCases <- SOS_find q limit skip ;;
     total <- SOS_countDocuments q ;;
     ret {| statusCode := 200;
            body := Listing (length sosCases) total sosCases |})
    (fun error =>
       ret {| statusCode := 500;
              body := Failure "Failed to fetch SOS cases" |}).

(** ** The vocabulary of the specification *)

(** [kw] occurs in [text] up to letter case: some substring of [text]
    has the same lower-case form as [kw]. *)
Definition occurs_ci (kw text : string) : Prop :=
  exists pre u post,
    text = pre +:+ u +:+ post /\ toLowerCase u = toLowerCase kw.

Definition critical_keyword_in (text : string) : Prop :=
  exists kw, In kw CRITICAL_KEYWORDS /\ occurs_ci kw text.

Definition rated_low_or_medium (a : Analysis) : Prop :=
  urgency a = Some "LOW" \/ urgency a = Some "MEDIUM".

(** The confidence is a number below [c]. *)
Definition confidence_below (a : Analysis) (c : Q) : Prop :=
  exists q, confidence a = Some q /\ (q < c)%Q.

(** The event type is missing (absent or empty, what [!eventType] tests)
    or is the sentinel. *)
Definition event_type_missing (a : Analysis) : Prop :=
  eventType a = None \/ eventType a = Some EmptyString.

Definition event_type_unknown (a : Analysis) : Prop :=
  event_type_missing a \/ eventType a = Some "Unknown".

(** The needs list is missing or empty. *)
Definition needs_missing_or_empty (a : Analysis) : Prop :=
  needs a = None \/ needs a = Some [].

(** The ordering LOW < MEDIUM < HIGH < CRITICAL. *)
Definition urgency_rank (u : string) : option nat :=
  if String.eqb u "LOW" then Some 0
  else if String.eqb u "MEDIUM" then Some 1
  else if String.eqb u "HIGH" then Some 2
  else if String.eqb u "CRITICAL" then Some 3
  else None.

(** [lo] is not above [hi] in that ordering; both are urgency levels. *)
Definition urgency_le (lo hi : option string) : Prop :=
  exists l h n m,
    lo = Some l /\ hi = Some h /\
    urgency_rank l = Some n /\ urgency_rank h = Some m /\ n <= m.

(** A missing string: absent or empty, what [!x] tests. *)
Definition missing_str (x : option string) : Prop :=
  x = None \/ x = Some EmptyString.

(** A number that is absent or zero, what [!x] tests. *)
Definition zero_or_missing (x : option Q) : Prop :=
  x = None \/ exists q, x = Some q /\ (q == 0)%Q.

(** The completions from which no analysis can be read: the request
    failed otherwise than on authentication, the content does not parse,
    or it parses without an urgency or without a summary. *)
Definition unusable (c : Completion) : Prop :=
  match c with
  | ApiFailure e => err_status e <> Some 401
  | BadContent _ => True
  | JsonObject a => missing_str (urgency a) \/ missing_str (summary a)
  end.

Definition authentication_failure (c : Completion) : Prop :=
  match c with
  | ApiFailure e => err_status e = Some 401
  | _ => False
  end.

(** The one-warning list pushed under a condition. *)
Definition when (c : bool) (w : string) : list string :=
  if c then [w] else [].

(** ** Sample inputs *)

Definition sample_location : Location :=
  {| latitude := Some 12.9%Q; longitude := Some 77.6%Q;
     accuracy := None; capturedAt := None |}.

Definition sample_text_request : TextRequest :=
  {| req_sessionId := Some "session-1";
     req_location := Some sample_location;
     req_message := Some "I am trapped under rubble, bleeding" |}.

Definition empty_world : World := {| db := []; clock := 0; trace := [] |}.

(** An environment whose chat completion rejects with the given status. *)
Definition env_rejecting (st : nat) : Env :=
  {| fs_existsSync := fun _ => true;
     audio_transcriptions_create := fun _ => inr "help";
     chat_completions_create := fun _ _ =>
       ApiFailure {| err_status := Some st; err_code := None;
                     err_message := "Incorrect API key provided" |} |}.

Definition env_answering (answer : string -> Analysis) : Env :=
  {| fs_existsSync := fun _ => true;
     audio_transcriptions_create := fun _ => inr "help";
     chat_completions_create := fun t _ => JsonObject (answer t) |}.


(** A service that rates a report CRITICAL when it mentions being
    trapped and LOW otherwise. *)
Definition sample_answer (t : string) : Analysis :=
  if includes t "trapped"
  then {| urgency := Some "CRITICAL"; summary := Some "Person trapped";
          eventType := Some "trapped"; injuryStatus := Some "bleeding";
          riskFactors := Some ["collapse"]; needs := Some ["rescue"];
          confidence := Some 0.9%Q |}
  else {| urgency := Some "LOW"; summary := Some "Asks for information";
          eventType := Some "information"; injuryStatus := Some "none";
          riskFactors := Some []; needs := Some ["information"];
          confidence := Some 0.9%Q |}.

Definition sample_info_request : TextRequest :=
  {| req_sessionId := Some "session-2";
     req_location := Some sample_location;
     req_message := Some "Which road to the camp is open?" |}.

Definition default_query : ListQuery :=
  {| q_status := None; q_urgency := None; q_limit := None; q_skip := None |}.

(** Two text reports, then the listing with its default query. *)
Definition two_reports : M Response :=
  createTextSOS sample_info_request ;;
  createTextSOS sample_text_request ;;
  getAllSOS default_query.

(** The [_id] and the urgency of the cases of a listing, in its order. *)
Definition listed_urgencies (res : Response) : list (nat * option string) :=
  match body res with
  | Listing _ _ data => map (fun d => (_id d, urgency (aiAnalysis d))) data
  | _ => []
  end.

(** A voice report whose audio file is on disk. *)
Definition sample_voice_request : VoiceRequest :=
  {| vreq_sessionId := Some "session-3";
     vreq_location := Some (Some sample_location);
     vreq_file := Some "uploads/session-3_1700000000000.webm" |}.

(** An environment whose transcription service is down. *)
Definition env_whisper_down : Env :=
  {| fs_existsSync := fun _ => true;
     audio_transcriptions_create := fun _ =>
       inl {| err_status := Some 503; err_code := None;
              err_message := "Service Unavailable" |};
     chat_completions_create := fun _ _ => BadContent "unused" |}.

(** A well-formed answer of the service that expresses no confidence. *)
Definition zero_confidence_answer : Analysis :=
  {| urgency := Some "MEDIUM"; summary := Some "Group waiting at the school";
     eventType := Some "stranded"; injuryStatus := None;
     riskFactors := None; needs := Some ["transport"];
     confidence := Some 0%Q |}.

(** * Properties *)

(** ** Numbers and strings *)

Lemma Qlt_bool_iff (x y : Q) : Qlt_bool x y = true <-> (x < y)%Q.
Proof.
  unfold Qlt_bool. rewrite negb_true_iff. split.
  - intros H. apply Qnot_le_lt. intros Hle.
    apply Qle_bool_iff in Hle. congruence.
  - intros H. destruct (Qle_bool y x) eqn:E; [|reflexivity].
    apply Qle_bool_iff in E. exfalso. exact (Qlt_not_le _ _ H E).
Qed.

Lemma toLowerCase_app (a b : string) :
  toLowerCase (a +:+ b) = toLowerCase a +:+ toLowerCase b.
Proof. induction a as [|c a IH]; simpl; [reflexivity | now rewrite IH]. Qed.

Lemma toLowerCase_split (t a b : string) :
  toLowerCase t = a +:+ b ->
  exists a' b', t = a' +:+ b' /\ toLowerCase a' = a /\ toLowerCase b' = b.
Proof.
  revert t. induction a as [|c a IH]; intros t H.
  - exists EmptyString, t. simpl in *. auto.
  - destruct t as [|d t]; simpl in H; [discriminate|].
    injection H as Hc Ht. destruct (IH _ Ht) as (a' & b' & -> & Ha & Hb).
    exists (String d a'), b'. simpl. rewrite Hc, Ha. auto.
Qed.

Lemma prefix_app (p s : string) : String.prefix p (p +:+ s) = true.
Proof.
  induction p as [|c p IH]; simpl.
  - destruct s; reflexivity.
  - destruct (ascii_dec c c); [exact IH | congruence].
Qed.

Lemma prefix_split (p s : string) :
  String.prefix p s = true -> exists post, s = p +:+ post.
Proof.
  revert s. induction p as [|c p IH]; intros s H.
  - exists s. reflexivity.
  - destruct s as [|d s]; simpl in H; [discriminate|].
    destruct (ascii_dec c d) as [->|]; [|discriminate].
    destruct (IH _ H) as [post ->]. exists post. reflexivity.
Qed.

Lemma includes_unfold (s kw : string) :
  includes s kw =
  String.prefix kw s ||
  match s with
  | EmptyString => false
  | String _ s' => includes s' kw
  end.
Proof. destruct s; reflexivity. Qed.

Lemma includes_iff (s kw : string) :
  includes s kw = true <-> exists pre post, s = pre +:+ kw +:+ post.
Proof.
  split.
  - induction s as [|c s IH]; rewrite includes_unfold, orb_true_iff;
      intros [H|H].
    + destruct (prefix_split _ _ H) as [post E].
      exists EmptyString, post. exact E.
    + discriminate.
    + destruct (prefix_split _ _ H) as [post E].
      exists EmptyString, post. exact E.
    + destruct (IH H) as (pre & post & ->).
      exists (String c pre), post. reflexivity.
  - intros (pre & post & ->). induction pre as [|c pre IH].
    + rewrite includes_unfold.
      change (EmptyString +:+ kw +:+ post) with (kw +:+ post).
      now rewrite prefix_app.
    + rewrite includes_unfold.
      change (String c pre +:+ kw +:+ post)
        with (String c (pre +:+ kw +:+ post)).
      cbv iota. rewrite IH. apply orb_true_r.
Qed.

Lemma includes_lower_iff (text kw : string) :
  includes (toLowerCase text) (toLowerCase kw) = true <-> occurs_ci kw text.
Proof.
  rewrite includes_iff. unfold occurs_ci. split.
  - intros (pre & post & H).
    destruct (toLowerCase_split _ _ _ H) as (pre' & rest & -> & Hpre & Hrest).
    destruct (toLowerCase_split _ _ _ Hrest) as (u & post' & -> & Hu & Hpost).
    exists pre', u, post'. auto.
  - intros (pre & u & post & -> & Hu).
    exists (toLowerCase pre), (toLowerCase post).
    now rewrite !toLowerCase_app, Hu.
Qed.

(** ** The validation engine, field by field *)

Lemma str_eq_iff (x : option string) (lit : string) :
  str_eq x lit = true <-> x = Some lit.
Proof.
  destruct x as [s|]; simpl.
  - rewrite String.eqb_eq. split; [intros -> | intros [= ->]]; reflexivity.
  - split; discriminate.
Qed.

Lemma truthy_str_false_iff (x : option string) :
  truthy_str x = false <-> x = None \/ x = Some EmptyString.
Proof.
  destruct x as [[|c s]|]; simpl; split; intros H; auto; try discriminate.
  destruct H as [H|H]; discriminate.
Qed.

(** The record returned by [validateAIAnalysis] sits under the branch of
    the override rule: name the keyword test and split on the branch. *)
Ltac validate_fields :=
  unfold validateAIAnalysis; cbv zeta;
  match goal with
  | |- context [existsb ?f CRITICAL_KEYWORDS] =>
      generalize (existsb f CRITICAL_KEYWORDS)
  end;
  let b := fresh "b" in
  intros b; destruct (b && _); cbv beta iota.

Lemma hasCriticalKeywords_eq a t :
  hasCriticalKeywords (validateAIAnalysis a t) =
  existsb (fun keyword => includes (toLowerCase t) (toLowerCase keyword))
    CRITICAL_KEYWORDS.
Proof. validate_fields; reflexivity. Qed.

Lemma hasCriticalKeywords_iff a t :
  hasCriticalKeywords (validateAIAnalysis a t) = true <-> critical_keyword_in t.
Proof.
  rewrite hasCriticalKeywords_eq, existsb_exists. unfold critical_keyword_in.
  split; intros (kw & Hin & H); exists kw; split; auto;
    now apply includes_lower_iff.
Qed.

Lemma adjustedUrgency_eq a t :
  adjustedUrgency (validateAIAnalysis a t) =
  if hasCriticalKeywords (validateAIAnalysis a t)
     && (str_eq (urgency a) "LOW" || str_eq (urgency a) "MEDIUM")
  then Some "CRITICAL" else urgency a.
Proof. rewrite hasCriticalKeywords_eq. validate_fields; reflexivity. Qed.

Lemma manualReview_eq a t :
  manualReview (validateAIAnalysis a t) =
  (hasCriticalKeywords (validateAIAnalysis a t)
   && (str_eq (urgency a) "LOW" || str_eq (urgency a) "MEDIUM"))
  || js_lt (confidence a) 0.5
  || (negb (truthy_str (eventType a)) || str_eq (eventType a) "Unknown").
Proof.
  rewrite hasCriticalKeywords_eq.
  validate_fields; destruct (js_lt _ _); destruct (negb _ || _); reflexivity.
Qed.

Lemma meetsThreshold_eq a t :
  meetsThreshold (validateAIAnalysis a t) = js_ge (confidence a) 0.6.
Proof. validate_fields; reflexivity. Qed.

Lemma warnings_eq a t :
  warnings (validateAIAnalysis a t) =
  generateWarnings a (hasCriticalKeywords (validateAIAnalysis a t))
    (meetsThreshold (validateAIAnalysis a t)).
Proof.
  rewrite hasCriticalKeywords_eq, meetsThreshold_eq.
  validate_fields; reflexivity.
Qed.

Lemma rated_low_or_medium_iff a :
  str_eq (urgency a) "LOW" || str_eq (urgency a) "MEDIUM" = true
  <-> rated_low_or_medium a.
Proof.
  unfold rated_low_or_medium. now rewrite orb_true_iff, !str_eq_iff.
Qed.

Lemma js_lt_iff a c : js_lt (confidence a) c = true <-> confidence_below a c.
Proof.
  unfold confidence_below. destruct (confidence a) as [q|]; simpl.
  - rewrite Qlt_bool_iff. split.
    + intros H. exists q. auto.
    + intros (q' & [= <-] & H). exact H.
  - split; [discriminate | intros (q & H & _); discriminate].
Qed.

Lemma event_type_unknown_iff a :
  negb (truthy_str (eventType a)) || str_eq (eventType a) "Unknown" = true
  <-> event_type_unknown a.
Proof.
  unfold event_type_unknown, event_type_missing.
  now rewrite orb_true_iff, negb_true_iff, truthy_str_false_iff, str_eq_iff.
Qed.

(** ** The claims on the validation engine *)

(** C1.  Whatever the analysis and the raw text: when some keyword of the
    critical list occurs in the raw text up to letter case, as a substring,
    and the analysis rates the report LOW or MEDIUM, [validateAIAnalysis]
    returns the adjusted urgency CRITICAL and asks for a manual review. *)
Theorem critical_keyword_escalates (a : Analysis) (rawText : string) :
  critical_keyword_in rawText ->
  rated_low_or_medium a ->
  adjustedUrgency (validateAIAnalysis a rawText) = Some "CRITICAL"
  /\ manualReview (validateAIAnalysis a rawText) = true.
Proof.
  intros Hk Hu.
  apply hasCriticalKeywords_iff with (a := a) in Hk.
  apply rated_low_or_medium_iff in Hu.
  rewrite adjustedUrgency_eq, manualReview_eq, Hk, Hu. auto.
Qed.

Lemma critical_keyword_escalates_witness :
  let a := {| urgency := Some "LOW"; summary := Some "asks for water";
              eventType := Some "stranded"; injuryStatus := None;
              riskFactors := Some []; needs := Some ["water"];
              confidence := Some 0.9%Q |} in
  let rawText := "We are TRAPPED on the roof" in
  critical_keyword_in rawText /\ rated_low_or_medium a
  /\ adjustedUrgency (validateAIAnalysis a rawText) = Some "CRITICAL"
  /\ manualReview (validateAIAnalysis a rawText) = true.
Proof.
  intros a rawText.
  assert (Hk : critical_keyword_in rawText).
  { exists "trapped". split; [simpl; auto|].
    exists "We are ", "TRAPPED", " on the roof". split; reflexivity. }
  assert (Hu : rated_low_or_medium a) by (left; reflexivity).
  split; [exact Hk|]. split; [exact Hu|].
  exact (critical_keyword_escalates a rawText Hk Hu).
Defined.

Lemma urgency_le_refl (u : string) (n : nat) :
  urgency_rank u = Some n -> urgency_le (Some u) (Some u).
Proof. intros H. exists u, u, n, n. auto. Qed.

Lemma urgency_le_critical (u : string) (n : nat) :
  urgency_rank u = Some n -> urgency_le (Some u) (Some "CRITICAL").
Proof.
  intros H. exists u, "CRITICAL", n, 3. repeat split; auto.
  unfold urgency_rank in H.
  repeat match type of H with
         | (if ?b then _ else _) = _ => destruct b
         end; inversion H; lia.
Qed.

(** C2.  The adjusted urgency is the urgency of the analysis or CRITICAL;
    when the analysis carries one of the four levels, the adjusted urgency
    is a level that is not below it in LOW < MEDIUM < HIGH < CRITICAL; an
    urgency of CRITICAL or HIGH is returned unchanged, and so is any
    urgency when no critical keyword occurs in the raw text. *)
Theorem adjustedUrgency_never_lowers (a : Analysis) (rawText : string) :
  let r := validateAIAnalysis a rawText in
  (adjustedUrgency r = urgency a \/ adjustedUrgency r = Some "CRITICAL")
  /\ (forall u n, urgency a = Some u -> urgency_rank u = Some n ->
      urgency_le (urgency a) (adjustedUrgency r))
  /\ (urgency a = Some "CRITICAL" \/ urgency a = Some "HIGH" ->
      adjustedUrgency r = urgency a)
  /\ (~ critical_keyword_in rawText -> adjustedUrgency r = urgency a).
Proof.
  intros r. subst r. rewrite adjustedUrgency_eq.
  destruct (hasCriticalKeywords (validateAIAnalysis a rawText)) eqn:Hk;
    cbn [andb].
  - destruct (str_eq (urgency a) "LOW" || str_eq (urgency a) "MEDIUM") eqn:Hu.
    + apply rated_low_or_medium_iff in Hu. repeat split.
      * now right.
      * intros u n -> Hr. now apply urgency_le_critical with n.
      * destruct Hu as [Hu|Hu]; rewrite Hu; intros [H|H]; discriminate.
      * intros Hn. exfalso. apply Hn. now apply (hasCriticalKeywords_iff a).
    + repeat split; auto.
      intros u n -> Hr. now apply urgency_le_refl with n.
  - repeat split; auto.
    intros u n -> Hr. now apply urgency_le_refl with n.
Qed.

(** C3.  [validateAIAnalysis] asks for a manual review exactly when (a) a
    critical keyword occurs in the raw text and the analysis rates the
    report LOW or MEDIUM, or (b) the confidence of the analysis is below
    0.5, or (c) its event type is missing (absent or empty) or is
    "Unknown".  Each condition suffices alone: a confidence below 0.5
    implies the review whatever the keywords. *)
Theorem manualReview_iff (a : Analysis) (rawText : string) :
  manualReview (validateAIAnalysis a rawText) = true <->
  (critical_keyword_in rawText /\ rated_low_or_medium a)
  \/ confidence_below a 0.5
  \/ event_type_unknown a.
Proof.
  rewrite manualReview_eq, !orb_true_iff, andb_true_iff.
  rewrite hasCriticalKeywords_iff, (rated_low_or_medium_iff a), js_lt_iff.
  rewrite <- event_type_unknown_iff, orb_true_iff. tauto.
Qed.

(** ** Warnings *)

Lemma generateWarnings_eq a hc mt :
  generateWarnings a hc mt =
  (when (negb mt) WARN_LOW_CONFIDENCE
   ++ when (hc && negb (str_eq (urgency a) "CRITICAL")) WARN_KEYWORD_MISMATCH
   ++ when (negb (truthy_str (eventType a)) || str_eq (eventType a) "Unknown")
        WARN_EVENT_TYPE
   ++ when (negb (truthy_arr (needs a))
            || match needs a with
               | Some l => (length l =? 0)%nat
               | None => false
               end) WARN_NO_NEEDS)%list.
Proof.
  unfold generateWarnings, push_if, when.
  destruct (negb mt), (hc && _), (negb (truthy_str _) || _),
    (negb (truthy_arr _) || _); reflexivity.
Qed.

Lemma needs_missing_or_empty_iff a :
  negb (truthy_arr (needs a))
  || match needs a with
     | Some l => (length l =? 0)%nat
     | None => false
     end = true
  <-> needs_missing_or_empty a.
Proof.
  unfold needs_missing_or_empty. destruct (needs a) as [[|x l]|]; simpl;
    split; auto; try discriminate.
  intros [H|H]; discriminate.
Qed.

Lemma in_when (c : bool) (w x : string) : In x (when c w) <-> c = true /\ x = w.
Proof.
  destruct c; simpl; split.
  - intros [<-|[]]. auto.
  - intros [_ ->]. auto.
  - intros [].
  - intros [H _]. discriminate.
Qed.

Lemma in_generateWarnings a hc mt x :
  In x (generateWarnings a hc mt) <->
  (mt = false /\ x = WARN_LOW_CONFIDENCE)
  \/ ((hc = true /\ urgency a <> Some "CRITICAL") /\ x = WARN_KEYWORD_MISMATCH)
  \/ (event_type_unknown a /\ x = WARN_EVENT_TYPE)
  \/ (needs_missing_or_empty a /\ x = WARN_NO_NEEDS).
Proof.
  rewrite generateWarnings_eq, !in_app_iff, !in_when.
  rewrite negb_true_iff, andb_true_iff, negb_true_iff.
  rewrite event_type_unknown_iff, needs_missing_or_empty_iff.
  assert (E : str_eq (urgency a) "CRITICAL" = false
              <-> urgency a <> Some "CRITICAL").
  { rewrite <- str_eq_iff. destruct (str_eq _ _); split; congruence. }
  rewrite E. tauto.
Qed.

Lemma NoDup_generateWarnings a hc mt : NoDup (generateWarnings a hc mt).
Proof.
  rewrite generateWarnings_eq. unfold when.
  destruct (negb mt), (hc && _), (negb (truthy_str _) || _),
    (negb (truthy_arr _) || _);
    simpl; apply (bool_decide_unpack _); vm_compute; exact I.
Qed.

Lemma warnings_distinct :
  WARN_LOW_CONFIDENCE <> WARN_KEYWORD_MISMATCH
  /\ WARN_LOW_CONFIDENCE <> WARN_EVENT_TYPE
  /\ WARN_LOW_CONFIDENCE <> WARN_NO_NEEDS
  /\ WARN_KEYWORD_MISMATCH <> WARN_EVENT_TYPE
  /\ WARN_KEYWORD_MISMATCH <> WARN_NO_NEEDS
  /\ WARN_EVENT_TYPE <> WARN_NO_NEEDS.
Proof. repeat split; discriminate. Qed.

Lemma meetsThreshold_false_iff a t q :
  confidence a = Some q ->
  (meetsThreshold (validateAIAnalysis a t) = false <-> (q < 0.6)%Q).
Proof.
  intros Hq. rewrite meetsThreshold_eq, Hq. simpl.
  rewrite <- Qlt_bool_iff. unfold Qlt_bool.
  destruct (Qle_bool 0.6 q); simpl; split; congruence.
Qed.

(** C9, amended.  The warnings returned by [validateAIAnalysis] are, each
    at most once and nothing else: the low-confidence warning iff
    [meetsThreshold] is false (for a numeric confidence: iff it is below
    0.6); the keyword/urgency mismatch warning iff a critical keyword
    occurs in the raw text and the urgency of the analysis given to the
    engine, before the override rule, is not CRITICAL, so that this
    warning fires whenever the override rule escalates; the event-type
    warning iff the event type is missing or "Unknown"; the needs warning
    iff the needs list is missing or empty. *)
Theorem warnings_exact (a : Analysis) (rawText : string) :
  let r := validateAIAnalysis a rawText in
  (In WARN_LOW_CONFIDENCE (warnings r) <-> meetsThreshold r = false)
  /\ (forall q, confidence a = Some q ->
      (meetsThreshold r = false <-> (q < 0.6)%Q))
  /\ (In WARN_KEYWORD_MISMATCH (warnings r) <->
      critical_keyword_in rawText /\ urgency a <> Some "CRITICAL")
  /\ (In WARN_EVENT_TYPE (warnings r) <-> event_type_unknown a)
  /\ (In WARN_NO_NEEDS (warnings r) <-> needs_missing_or_empty a)
  /\ (forall w, In w (warnings r) ->
      w = WARN_LOW_CONFIDENCE \/ w = WARN_KEYWORD_MISMATCH
      \/ w = WARN_EVENT_TYPE \/ w = WARN_NO_NEEDS)
  /\ NoDup (warnings r)
  /\ (critical_keyword_in rawText /\ rated_low_or_medium a ->
      adjustedUrgency r = Some "CRITICAL"
      /\ In WARN_KEYWORD_MISMATCH (warnings r)).
Proof.
  intros r. subst r.
  destruct warnings_distinct as (D1 & D2 & D3 & D4 & D5 & D6).
  assert (Hmis :
            In WARN_KEYWORD_MISMATCH (warnings (validateAIAnalysis a rawText))
            <-> critical_keyword_in rawText /\ urgency a <> Some "CRITICAL").
  { rewrite warnings_eq, in_generateWarnings, hasCriticalKeywords_iff.
    intuition congruence. }
  split; [|split; [|split; [|split; [|split; [|split; [|split]]]]]].
  - rewrite warnings_eq, in_generateWarnings. intuition congruence.
  - intros q Hq. now apply meetsThreshold_false_iff.
  - exact Hmis.
  - rewrite warnings_eq, in_generateWarnings. intuition congruence.
  - rewrite warnings_eq, in_generateWarnings. intuition congruence.
  - intros w. rewrite warnings_eq, in_generateWarnings. intuition.
  - rewrite warnings_eq. apply NoDup_generateWarnings.
  - intros [Hk Hu]. split.
    + rewrite adjustedUrgency_eq.
      apply hasCriticalKeywords_iff with (a := a) in Hk.
      apply rated_low_or_medium_iff in Hu. now rewrite Hk, Hu.
    + apply Hmis. split; [exact Hk|].
      destruct Hu as [Hu|Hu]; rewrite Hu; discriminate.
Qed.

(** C9 as stated fails: on a report rated LOW that asks for help the
    override rule escalates to CRITICAL, and the mismatch warning is
    issued although the adjusted urgency is CRITICAL. *)
Lemma mismatch_warning_despite_escalation :
  let a := {| urgency := Some "LOW"; summary := Some "asks for a lift";
              eventType := Some "stranded"; injuryStatus := Some "none";
              riskFactors := Some []; needs := Some ["transport"];
              confidence := Some 0.9%Q |} in
  let r := validateAIAnalysis a "please help" in
  adjustedUrgency r = Some "CRITICAL"
  /\ warnings r = [WARN_KEYWORD_MISMATCH]
  /\ ~ (In WARN_KEYWORD_MISMATCH (warnings r) <->
        hasCriticalKeywords r = true /\ adjustedUrgency r <> Some "CRITICAL").
Proof.
  vm_compute. split; [reflexivity|]. split; [reflexivity|].
  intros [H _]. destruct H as [_ H]; [left; reflexivity|]. now apply H.
Qed.

(** ** The structured analysis adapter *)

Lemma status_is_iff e n : status_is e n = true <-> err_status e = Some n.
Proof.
  unfold status_is. destruct (err_status e) as [m|].
  - rewrite Nat.eqb_eq. split; [intros -> | intros [= ->]]; reflexivity.
  - split; discriminate.
Qed.

Lemma missing_str_iff (x : option string) :
  truthy_str x = false <-> missing_str x.
Proof. apply truthy_str_false_iff. Qed.

Lemma or_str_missing x d : missing_str x -> or_str x d = d.
Proof. intros [-> | ->]; reflexivity. Qed.

Lemma or_str_present x d : ~ missing_str x -> Some (or_str x d) = x.
Proof.
  intros H. destruct x as [[|c s]|]; simpl; auto.
  - exfalso. apply H. now right.
  - exfalso. apply H. now left.
Qed.

Lemma zero_or_missing_iff (x : option Q) :
  truthy_num x = false <-> zero_or_missing x.
Proof.
  unfold zero_or_missing. destruct x as [q|]; simpl.
  - rewrite negb_false_iff, Qeq_bool_iff. split.
    + intros H. right. exists q. auto.
    + intros [H | (q' & [= <-] & H)]; [discriminate | exact H].
  - split; auto.
Qed.

Lemma or_num_missing x d : zero_or_missing x -> or_num x d = d.
Proof.
  intros H. apply zero_or_missing_iff in H.
  destruct x as [q|]; simpl in *; [now rewrite H | reflexivity].
Qed.

(** What a call of the adapter does, by the completion it gets. *)
Lemma analyzeSOSContent_run transcript metadata env w :
  analyzeSOSContent transcript metadata env w =
  (match chat_completions_create env transcript metadata with
   | ApiFailure e =>
       if status_is e 401
       then Thrown (new_Error "Invalid OpenAI API key")
       else Returned degraded_analysis
   | BadContent _ => Returned degraded_analysis
   | JsonObject a =>
       if negb (truthy_str (urgency a)) || negb (truthy_str (summary a))
       then Returned degraded_analysis
       else Returned (with_defaults a)
   end, record_stage StructuredAnalysis w).
Proof.
  unfold analyzeSOSContent, try_catch, bind, enter, await_completion.
  destruct (chat_completions_create env transcript metadata) as [e|m|a].
  - unfold throw, ret. destruct (status_is e 401); reflexivity.
  - reflexivity.
  - destruct (negb (truthy_str (urgency a)) || negb (truthy_str (summary a)));
      reflexivity.
Qed.

(** C4.  Whatever the transcript and the metadata: when the completion
    request fails otherwise than with status 401, or its content does not
    parse, or parses without an urgency or a summary, [analyzeSOSContent]
    returns (it does not throw) the degraded record: urgency HIGH,
    confidence 0, event type "Unknown", needs ["Manual review required"]
    and a summary saying that the analysis failed.  When the request
    fails with status 401 it throws. *)
Theorem analyzeSOSContent_degrades env w transcript metadata :
  let c := chat_completions_create env transcript metadata in
  (unusable c ->
   exists r w',
     analyzeSOSContent transcript metadata env w = (Returned r, w')
     /\ urgency r = Some "HIGH"
     /\ confidence r = Some 0%Q
     /\ eventType r = Some "Unknown"
     /\ needs r = Some ["Manual review required"]
     /\ summary r = Some "AI analysis failed - requires manual review")
  /\ (authentication_failure c ->
      exists w',
        analyzeSOSContent transcript metadata env w =
        (Thrown (new_Error "Invalid OpenAI API key"), w')).
Proof.
  intros c. subst c. rewrite analyzeSOSContent_run.
  destruct (chat_completions_create env transcript metadata) as [e|m|a];
    simpl; split.
  - intros Hne. destruct (status_is e 401) eqn:E.
    + apply status_is_iff in E. contradiction.
    + exists degraded_analysis. eexists. repeat split.
  - intros He. apply status_is_iff in He. rewrite He. eexists. reflexivity.
  - intros _. exists degraded_analysis. eexists. repeat split.
  - intros [].
  - intros H.
    assert (E : negb (truthy_str (urgency a)) || negb (truthy_str (summary a))
                = true).
    { rewrite orb_true_iff, !negb_true_iff, !missing_str_iff. exact H. }
    rewrite E. exists degraded_analysis. eexists. repeat split.
  - intros [].
Qed.

(** C10.  When the completion parses with an urgency and a summary,
    [analyzeSOSContent] returns them and replaces every other falsy
    property by its default: an event type or injury status that is
    missing by "Unknown", an absent list by the empty list, and a
    confidence that is zero or missing by 0.5.  Then the confidence of the
    result is not below 0.5, and the engine asks for a manual review of it
    only for the override rule or the event type. *)
Theorem falsy_fields_defaulted env w transcript metadata a :
  chat_completions_create env transcript metadata = JsonObject a ->
  ~ missing_str (urgency a) ->
  ~ missing_str (summary a) ->
  exists r w',
    analyzeSOSContent transcript metadata env w = (Returned r, w')
    /\ urgency r = urgency a
    /\ summary r = summary a
    /\ (missing_str (eventType a) -> eventType r = Some "Unknown")
    /\ (missing_str (injuryStatus a) -> injuryStatus r = Some "Unknown")
    /\ (riskFactors a = None -> riskFactors r = Some [])
    /\ (needs a = None -> needs r = Some [])
    /\ (zero_or_missing (confidence a) ->
        confidence r = Some 0.5%Q
        /\ ~ confidence_below r 0.5
        /\ forall rawText,
             manualReview (validateAIAnalysis r rawText) = true <->
             (critical_keyword_in rawText /\ rated_low_or_medium r)
             \/ event_type_unknown r).
Proof.
  intros Hc Hu Hs. rewrite analyzeSOSContent_run, Hc.
  assert (E : negb (truthy_str (urgency a)) || negb (truthy_str (summary a))
              = false).
  { rewrite orb_false_iff, !negb_false_iff. split.
    - destruct (truthy_str (urgency a)) eqn:T; [reflexivity|].
      apply missing_str_iff in T. contradiction.
    - destruct (truthy_str (summary a)) eqn:T; [reflexivity|].
      apply missing_str_iff in T. contradiction. }
  rewrite E. exists (with_defaults a). eexists.
  split; [reflexivity|]. simpl.
  split; [now apply or_str_present|].
  split; [now apply or_str_present|].
  split; [intros H; now rewrite or_str_missing|].
  split; [intros H; now rewrite or_str_missing|].
  split; [intros ->; reflexivity|].
  split; [intros ->; reflexivity|].
  intros Hz. rewrite (or_num_missing _ _ Hz).
  assert (Hnb : ~ confidence_below (with_defaults a) 0.5).
  { intros (q & Hq & Hlt). simpl in Hq. rewrite (or_num_missing _ _ Hz) in Hq.
    injection Hq as <-. revert Hlt. apply Qlt_irrefl. }
  split; [reflexivity|]. split; [exact Hnb|].
  intros rawText.
  rewrite manualReview_eq, !orb_true_iff, andb_true_iff.
  rewrite hasCriticalKeywords_iff, (rated_low_or_medium_iff (with_defaults a)).
  rewrite js_lt_iff, <- event_type_unknown_iff, orb_true_iff. tauto.
Qed.

(** ** The voice pipeline *)

(** The stage is recorded whatever the transcription does. *)
Lemma transcribeAudio_world path env w :
  snd (transcribeAudio path env w) = record_stage Transcription w.
Proof.
  unfold transcribeAudio, try_catch, bind, enter, ask, await_transcription.
  cbn [fst snd]. destruct (fs_existsSync env path); cbn.
  - destruct (audio_transcriptions_create env path) as [e|text]; cbn;
      [|reflexivity].
    destruct (str_eq (err_code e) "ENOENT"); [reflexivity|].
    destruct (status_is e 401); [reflexivity|].
    destruct (status_is e 413); reflexivity.
  - reflexivity.
Qed.

Lemma processVoiceSOS_transcription_fails env w sosId path e :
  fst (transcribeAudio path env w) = Thrown e ->
  processVoiceSOS sosId path env w =
  (Returned tt,
   {| db := alter (apply_update (failed_update e)) sosId (db w);
      clock := clock w;
      trace := trace w ++ [Transcription] |}).
Proof.
  intros H. pose proof (transcribeAudio_world path env w) as Hw.
  unfold processVoiceSOS, try_catch, bind.
  destruct (transcribeAudio path env w) as [o w1]. cbn in H, Hw. subst o w1.
  reflexivity.
Qed.

Lemma createVoiceSOS_job req env w res sosId path w1 :
  createVoiceSOS req env w = (Returned (res, Some (sosId, path)), w1) ->
  exists doc,
    w1 = {| db := db w ++ [doc]; clock := S (clock w); trace := trace w |}
    /\ sosId = length (db w)
    /\ _id doc = sosId
    /\ status doc = "processing"
    /\ transcript doc = None
    /\ aiAnalysis doc = default_aiAnalysis
    /\ validationFlags doc = default_validationFlags
    /\ processingErrors doc = []
    /\ originalData doc =
       {| voiceFileUrl := Some path; textMessage := None; photoUrl := None |}.
Proof.
  unfold createVoiceSOS, try_catch, bind, JSON_parse.
  destruct (vreq_file req) as [p|]; [|discriminate].
  destruct (vreq_location req) as [loc|]; cbn -[validateSOSData];
    [|discriminate].
  destruct (negb (isValid _)); cbn; [discriminate|].
  intros [= <- <- <- <-]. eexists. repeat split.
Qed.

(** C8.  A voice report is accepted, its case created, and the
    transcription of its audio fails.  Then the run ends with the case in
    status "failed", with the error message as its one processing error,
    without a transcript, and with [aiAnalysis] and [validationFlags] as
    the schema creates them: no analysis was stored.  The run entered the
    transcription stage only, neither the analysis nor the validation. *)
Theorem transcription_failure_fails_case env w req res sosId path w1 e :
  createVoiceSOS req env w = (Returned (res, Some (sosId, path)), w1) ->
  fst (transcribeAudio path env w1) = Thrown e ->
  exists doc w',
    runVoiceSOS req env w = (Returned res, w')
    /\ db w' !! sosId = Some doc
    /\ status doc = "failed"
    /\ processingErrors doc = [err_message e]
    /\ processingErrors doc <> []
    /\ transcript doc = None
    /\ aiAnalysis doc = default_aiAnalysis
    /\ validationFlags doc = default_validationFlags
    /\ trace w' = trace w ++ [Transcription].
Proof.
  intros Hc Ht.
  destruct (createVoiceSOS_job _ _ _ _ _ _ _ Hc)
    as (doc0 & Hw1 & Hid & _ & _ & Htr & Hai & Hvf & _ & _).
  unfold runVoiceSOS, bind. rewrite Hc.
  rewrite (processVoiceSOS_transcription_fails _ _ _ _ _ Ht).
  exists (apply_update (failed_update e) doc0). eexists.
  split; [reflexivity|]. cbn [db trace].
  split.
  { rewrite list_lookup_alter_eq, Hw1, Hid. cbn [db].
    now rewrite list_lookup_middle. }
  rewrite Hw1. cbn. repeat split; auto.
Qed.

(** Closes a branch of the job: the run is computed, and the case is
    read back through the updates. *)
Ltac finish_run Hdoc :=
  eexists; eexists; split; [reflexivity|]; cbn [db record_stage];
  rewrite !list_lookup_alter_eq, Hdoc; cbn; split; [reflexivity|];
  first [ now left | right; split; [reflexivity | discriminate] ].

(** Every run of the background job ends the case in a terminal state:
    processed, or failed with the error recorded. *)
Lemma processVoiceSOS_terminal env w sosId path doc :
  db w !! sosId = Some doc ->
  exists doc' w',
    processVoiceSOS sosId path env w = (Returned tt, w')
    /\ db w' !! sosId = Some doc'
    /\ (status doc' = "processed" \/
        status doc' = "failed" /\ processingErrors doc' <> []).
Proof.
  intros Hdoc. pose proof (transcribeAudio_world path env w) as Hw.
  unfold processVoiceSOS, try_catch, bind.
  destruct (transcribeAudio path env w) as [[text|e] w1]; cbn in Hw; subst w1.
  - unfold SOS_findByIdAndUpdate at 1. unfold SOS_findById.
    cbn [db record_stage clock trace].
    rewrite list_lookup_alter_eq, Hdoc. cbn [fmap option_fmap option_map].
    rewrite analyzeSOSContent_run.
    match goal with
    | |- context [chat_completions_create env text ?md] =>
        destruct (chat_completions_create env text md) as [e|m|a]
    end.
    + destruct (status_is e 401); finish_run Hdoc.
    + finish_run Hdoc.
    + destruct (negb (truthy_str (urgency a))
                || negb (truthy_str (summary a))); finish_run Hdoc.
  - finish_run Hdoc.
Qed.

(** ** The text pipeline *)

Lemma createTextSOS_rejects req env w :
  isValid (validateSOSData {| sessionId := req_sessionId req;
                              sosType := Some "text";
                              location := req_location req |}) = false ->
  exists errs,
    createTextSOS req env w =
    (Returned {| statusCode := 400; body := Rejected errs |}, w)
    /\ errs <> [].
Proof.
  intros H. unfold createTextSOS, try_catch. rewrite H. cbn [negb].
  eexists. split; [reflexivity|].
  unfold validateSOSData in H |- *. cbv zeta in *. cbn [isValid errors] in *.
  intros E. rewrite E in H. discriminate.
Qed.

(** After an authentication failure of the analysis service the text
    handler answers 500 and writes nothing more: the case it created
    stays as created. *)
Lemma createTextSOS_auth_failure req env w message e :
  isValid (validateSOSData {| sessionId := req_sessionId req;
                              sosType := Some "text";
                              location := req_location req |}) = true ->
  req_message req = Some message ->
  truthy_str (Some message) = true ->
  (String.length (trim message) =? 0)%nat = false ->
  (forall md, chat_completions_create env message md = ApiFailure e) ->
  err_status e = Some 401 ->
  exists doc w',
    createTextSOS req env w =
    (Returned {| statusCode := 500;
                 body := Failure "Failed to process text SOS" |}, w')
    /\ db w' = db w ++ [doc]
    /\ _id doc = length (db w)
    /\ status doc = "processing"
    /\ processingErrors doc = [].
Proof.
  intros Hv Hm Ht Hb Hc He.
  unfold createTextSOS, try_catch, bind, analyzeTextSOS.
  rewrite Hv, Hm, Ht, Hb. cbn [negb orb new_Date SOS_create].
  rewrite analyzeSOSContent_run, Hc.
  apply status_is_iff in He. rewrite He.
  eexists. eexists. split; [reflexivity|]. cbn. auto.
Qed.

(** C5 fails on the text path.  The analysis service rejects the
    credential (status 401) after the case of a valid text report has
    been created: [createTextSOS] answers 500 and the case stays in
    "processing" with no processing error, where [processVoiceSOS] would
    have set it to "failed". *)
Theorem text_case_left_processing :
  exists res w' doc,
    createTextSOS sample_text_request (env_rejecting 401) empty_world
    = (Returned res, w')
    /\ statusCode res = 500
    /\ db w' = [doc]
    /\ status doc = "processing"
    /\ processingErrors doc = [].
Proof. do 3 eexists. vm_compute. repeat split. Qed.

(** C6 fails at zero.  A report with a session, a valid type, latitude 0
    and longitude 77.6 has both coordinates in range, and
    [validateSOSData] refuses it: the test for a missing location reads
    the number 0 as absent. *)
Theorem zero_latitude_rejected :
  let loc := {| latitude := Some 0%Q; longitude := Some 77.6%Q;
                accuracy := None; capturedAt := None |} in
  validateSOSData {| sessionId := Some "session-1"; sosType := Some "text";
                     location := Some loc |}
  = {| isValid := false; errors := ["Location data is required"] |}
  /\ (-90 <= 0 <= 90)%Q /\ (-180 <= 77.6 <= 180)%Q.
Proof. split; [reflexivity|]. repeat split; discriminate. Qed.

(** C7 fails.  After a report rated LOW and then one rated CRITICAL,
    [getAllSOS] with its default query lists the LOW case first: the sort
    is on the urgency as a string, in descending order, and "LOW" is above
    "CRITICAL". *)
Theorem listing_low_before_critical :
  exists res w',
    two_reports (env_answering sample_answer) empty_world = (Returned res, w')
    /\ statusCode res = 200
    /\ listed_urgencies res = [(0, Some "LOW"); (1, Some "CRITICAL")].
Proof. do 2 eexists. vm_compute. repeat split. Qed.

(** ** Intake validation *)

Lemma Qlt_bool_false_iff (x y : Q) : Qlt_bool x y = false <-> (y <= x)%Q.
Proof.
  unfold Qlt_bool. rewrite negb_false_iff. apply Qle_bool_iff.
Qed.

Lemma valid_type_truthy t :
  In t validTypes ->
  truthy_str (Some t) = true /\ existsb (String.eqb t) validTypes = true.
Proof.
  intros H. split.
  - simpl in H. destruct H as [<-|[<-|[<-|[]]]]; reflexivity.
  - apply existsb_exists. exists t. split; [exact H | apply String.eqb_refl].
Qed.

(** What the code accepts: both coordinates present, in range and not
    zero. *)
Lemma validateSOSData_accepts_iff (d : SosData) t :
  truthy_str (sessionId d) = true ->
  sosType d = Some t ->
  In t validTypes ->
  (isValid (validateSOSData d) = true <->
   exists loc lat lon,
     location d = Some loc
     /\ latitude loc = Some lat /\ longitude loc = Some lon
     /\ ~ (lat == 0)%Q /\ ~ (lon == 0)%Q
     /\ (-90 <= lat <= 90)%Q /\ (-180 <= lon <= 180)%Q).
Proof.
  intros Hs Ht Hin. destruct (valid_type_truthy t Hin) as [Htt Hex].
  unfold validateSOSData. cbv zeta. rewrite Hs, Ht, Htt, Hex.
  cbn [negb andb push_if]. cbn [isValid].
  destruct (location d) as [loc|] eqn:Hloc.
  2:{ cbn. split; [discriminate | intros (? & ? & ? & H & _); discriminate]. }
  destruct (latitude loc) as [lat|] eqn:Hlat.
  2:{ cbn. unfold push_if.
      repeat match goal with |- context [if ?b then _ else _] => destruct b end;
        cbn; (split; [discriminate|]);
        intros (? & ? & ? & [= <-] & H1 & _); congruence. }
  destruct (longitude loc) as [lon|] eqn:Hlon.
  2:{ cbn. rewrite orb_true_r. unfold push_if.
      repeat match goal with |- context [if ?b then _ else _] => destruct b end;
        cbn; (split; [discriminate|]);
        intros (? & ? & ? & [= <-] & _ & H2 & _); congruence. }
  cbn [truthy_num js_lt js_gt].
  assert (R : forall P : Prop,
             (P <-> exists loc0 lat0 lon0,
                      Some loc = Some loc0
                      /\ latitude loc0 = Some lat0 /\ longitude loc0 = Some lon0
                      /\ ~ (lat0 == 0)%Q /\ ~ (lon0 == 0)%Q
                      /\ (-90 <= lat0 <= 90)%Q /\ (-180 <= lon0 <= 180)%Q)
             <-> (P <-> ~ (lat == 0)%Q /\ ~ (lon == 0)%Q
                        /\ (-90 <= lat <= 90)%Q /\ (-180 <= lon <= 180)%Q)).
  { intros P.
    assert (E : (exists loc0 lat0 lon0,
                      Some loc = Some loc0
                      /\ latitude loc0 = Some lat0 /\ longitude loc0 = Some lon0
                      /\ ~ (lat0 == 0)%Q /\ ~ (lon0 == 0)%Q
                      /\ (-90 <= lat0 <= 90)%Q /\ (-180 <= lon0 <= 180)%Q)
                <-> ~ (lat == 0)%Q /\ ~ (lon == 0)%Q
                        /\ (-90 <= lat <= 90)%Q /\ (-180 <= lon <= 180)%Q).
    { split.
      - intros (loc0 & lat0 & lon0 & [= <-] & H1 & H2 & H).
        rewrite Hlat in H1. rewrite Hlon in H2.
        injection H1 as <-. injection H2 as <-. exact H.
      - intros H. exists loc, lat, lon. auto. }
    rewrite E. tauto. }
  apply R. clear R.
  rewrite <- (Qeq_bool_iff lat 0), <- (Qeq_bool_iff lon 0).
  rewrite <- !Qlt_bool_false_iff.
  destruct (Qeq_bool lat 0), (Qeq_bool lon 0),
    (Qlt_bool lat (-90)), (Qlt_bool 90 lat),
    (Qlt_bool lon (-180)), (Qlt_bool 180 lon);
    cbn; intuition congruence.
Qed.

(** ** The listing *)

Lemma compare_urgency_antisym a b :
  compare_urgency b a = CompOpp (compare_urgency a b).
Proof.
  destruct a, b; simpl; auto. apply String.compare_antisym.
Qed.

Lemma listed_before_total a b :
  listed_before a b = false -> listed_before b a = true.
Proof.
  unfold listed_before.
  rewrite (compare_urgency_antisym (urgency (aiAnalysis a))).
  destruct (compare_urgency _ _); simpl; auto; try discriminate.
  rewrite !Nat.leb_le, Nat.leb_gt. lia.
Qed.

Lemma insert_sorted_HdRel d x l :
  listed_before x d = true ->
  HdRel (fun a b => listed_before a b = true) x l ->
  HdRel (fun a b => listed_before a b = true) x (insert_sorted d l).
Proof.
  intros Hxd H. destruct l as [|y l]; simpl.
  - now constructor.
  - destruct (listed_before d y); constructor; auto. now inversion H.
Qed.

Lemma insert_sorted_Sorted d l :
  Sorted (fun a b => listed_before a b = true) l ->
  Sorted (fun a b => listed_before a b = true) (insert_sorted d l).
Proof.
  induction 1 as [|x l Hs IH Hh]; simpl.
  - repeat constructor.
  - destruct (listed_before d x) eqn:E.
    + constructor; [now constructor | now constructor].
    + constructor; [exact IH|].
      apply insert_sorted_HdRel; [now apply listed_before_total | exact Hh].
Qed.

(** The listing is in the store's order on the urgency strings. *)
Lemma sort_listing_Sorted l :
  Sorted (fun a b => listed_before a b = true) (sort_listing l).
Proof.
  induction l as [|d l IH]; simpl; [constructor|].
  now apply insert_sorted_Sorted.
Qed.

Lemma insert_sorted_Permutation d l : Permutation (insert_sorted d l) (d :: l).
Proof.
  induction l as [|x l IH]; simpl; [reflexivity|].
  destruct (listed_before d x); [reflexivity|].
  rewrite IH. apply perm_swap.
Qed.

Lemma sort_listing_Permutation l : Permutation (sort_listing l) l.
Proof.
  induction l as [|d l IH]; simpl; [reflexivity|].
  now rewrite insert_sorted_Permutation, IH.
Qed.

(** In that order CRITICAL is the lowest of the four levels. *)
Lemma critical_listed_last d1 d2 u :
  urgency (aiAnalysis d1) = Some "CRITICAL" ->
  urgency (aiAnalysis d2) = Some u ->
  In u ["HIGH"; "MEDIUM"; "LOW"] ->
  listed_before d2 d1 = true /\ listed_before d1 d2 = false.
Proof.
  intros H1 H2 Hu. unfold listed_before. rewrite H1, H2.
  simpl in Hu. destruct Hu as [<-|[<-|[<-|[]]]]; split; reflexivity.
Qed.

Section SortedPieces.
Context {A : Type} (R : A -> A -> Prop).

Lemma Sorted_drop n (l : list A) : Sorted R l -> Sorted R (drop n l).
Proof.
  revert l. induction n as [|n IH]; intros l H; [now rewrite drop_0|].
  destruct l as [|x l]; [constructor|].
  simpl. apply IH. now inversion H.
Qed.

Lemma HdRel_take n x (l : list A) : HdRel R x l -> HdRel R x (take n l).
Proof.
  intros H. destruct n, l; simpl; constructor. now inversion H.
Qed.

Lemma Sorted_take n (l : list A) : Sorted R l -> Sorted R (take n l).
Proof.
  revert l. induction n as [|n IH]; intros l H; [constructor|].
  destruct l as [|x l]; [constructor|].
  simpl. inversion H; subst. constructor; [now apply IH|].
  now apply HdRel_take.
Qed.
End SortedPieces.

(** What the listing is: the matching cases, in the store's order on the
    urgency strings (then the latest first), cut by [skip] and [limit]. *)
Lemma getAllSOS_listing q env w :
  exists data,
    getAllSOS q env w =
    (Returned {| statusCode := 200;
                 body := Listing (length data)
                           (length (List.filter (matches q) (db w))) data |},
     w)
    /\ Sorted (fun a b => listed_before a b = true) data
    /\ (forall d, In d data -> In d (db w) /\ matches q d = true).
Proof.
  eexists. split; [reflexivity|]. split.
  - unfold apply_limit. destruct (_ =? 0)%nat.
    + apply Sorted_drop, sort_listing_Sorted.
    + apply Sorted_take, Sorted_drop, sort_listing_Sorted.
  - intros d Hd.
    assert (Hin : In d (sort_listing (List.filter (matches q) (db w)))).
    { unfold apply_limit in Hd. apply list_elem_of_In in Hd.
      apply list_elem_of_In.
      destruct (_ =? 0)%nat.
      - eapply subseteq_drop; eauto.
      - eapply subseteq_drop. eapply subseteq_take. eauto. }
    apply (Permutation_in _ (sort_listing_Permutation _)) in Hin.
    now apply filter_In in Hin.
Qed.

(** ** Instances *)

Lemma transcription_failure_fails_case_witness :
  exists res e doc w',
    runVoiceSOS sample_voice_request env_whisper_down empty_world
    = (Returned res, w')
    /\ db w' !! 0 = Some doc
    /\ status doc = "failed"
    /\ processingErrors doc = [err_message e]
    /\ processingErrors doc <> []
    /\ transcript doc = None
    /\ aiAnalysis doc = default_aiAnalysis
    /\ validationFlags doc = default_validationFlags
    /\ trace w' = trace empty_world ++ [Transcription].
Proof.
  do 2 eexists.
  eapply (transcription_failure_fails_case env_whisper_down empty_world
            sample_voice_request _ 0
            "uploads/session-3_1700000000000.webm");
    reflexivity.
Defined.

Lemma falsy_fields_defaulted_witness :
  exists r w',
    analyzeSOSContent "We are waiting at the school"
      {| md_receivedAt := Some 0; md_location := Some sample_location |}
      (env_answering (fun _ => zero_confidence_answer)) empty_world
    = (Returned r, w')
    /\ urgency r = urgency zero_confidence_answer
    /\ summary r = summary zero_confidence_answer
    /\ (missing_str (eventType zero_confidence_answer) ->
        eventType r = Some "Unknown")
    /\ (missing_str (injuryStatus zero_confidence_answer) ->
        injuryStatus r = Some "Unknown")
    /\ (riskFactors zero_confidence_answer = None -> riskFactors r = Some [])
    /\ (needs zero_confidence_answer = None -> needs r = Some [])
    /\ (zero_or_missing (confidence zero_confidence_answer) ->
        confidence r = Some 0.5%Q
        /\ ~ confidence_below r 0.5
        /\ forall rawText,
             manualReview (validateAIAnalysis r rawText) = true <->
             (critical_keyword_in rawText /\ rated_low_or_medium r)
             \/ event_type_unknown r).
Proof.
  apply (falsy_fields_defaulted
           (env_answering (fun _ => zero_confidence_answer)) empty_world
           "We are waiting at the school"
           {| md_receivedAt := Some 0; md_location := Some sample_location |}
           zero_confidence_answer).
  - reflexivity.
  - intros [H|H]; discriminate.
  - intros [H|H]; discriminate.
Defined.

(** The report of the specification's round trip, rated LOW by the
    service: it is stored as CRITICAL, flagged, and processed. *)
Example trapped_report_round_trip :
  let answer := fun _ : string =>
    {| urgency := Some "LOW"; summary := Some "Someone needs assistance";
       eventType := Some "trapped"; injuryStatus := Some "bleeding";
       riskFactors := Some []; needs := Some ["rescue"];
       confidence := Some 0.9%Q |} in
  exists res w' doc,
    createTextSOS sample_text_request (env_answering answer) empty_world
    = (Returned res, w')
    /\ statusCode res = 201
    /\ db w' = [doc]
    /\ urgency (aiAnalysis doc) = Some "CRITICAL"
    /\ vf_hasKeywords (validationFlags doc) = Some true
    /\ vf_manualReview (validationFlags doc) = true
    /\ status doc = "processed".
Proof. do 3 eexists. vm_compute. repeat split. Qed.

(** A latitude of 120 is refused before anything is stored. *)
Example latitude_120_rejected :
  let req := {| req_sessionId := Some "session-1";
                req_location :=
                  Some {| latitude := Some 120%Q; longitude := Some 77.6%Q;
                          accuracy := None; capturedAt := None |};
                req_message := Some "I am trapped under rubble, bleeding" |} in
  createTextSOS req (env_rejecting 401) empty_world
  = (Returned {| statusCode := 400;
                 body := Rejected ["Invalid latitude value"] |},
     empty_world).
Proof. reflexivity. Qed.
